(** * kysely-relations: the relation query compiler

    A shallow embedding of [relations-builder.js] (the SQLite, MySQL and
    PostgreSQL variants share the same text apart from the import of the two
    JSON helpers) and the properties of the specification that concern it.

    The file has four layers:
    - the host query builder, which is not part of the repository: its
      immutable builder values are represented by the history of the calls
      that made them, and every call is recorded in a call log;
    - the seven functions of [relations-builder.js], written in a small
      logging monad so that one can tell what is done when a relation is
      declared from what is done each time the compiled relation is invoked;
    - an evaluator for the host's queries over an in-memory database, used
      only by the claims that speak about produced values;
    - the relation constructors once more, passing a store that the
      caller's functions may read and write, used by the claim about
      state. *)

From Stdlib Require Import String Ascii List ZArith Bool Lia.
Import ListNotations.
Open Scope string_scope.
Open Scope list_scope.
Set Warnings "-register-all".

(** ** JSON values (cells of a row, and the values a relation produces) *)

Inductive Json : Type :=
| JNull
| JNum (z : Z)
| JStr (s : string)
| JObj (fields : list (string * Json))
| JArr (items : list Json).

(** ** The host query builder *)

Module Host.

(** Modelled from the spec: the host's operators on filter predicates.  The
    source only passes ["="] and ["in"]; [OpNe] stands for what a caller's
    customize function may add. *)
Inductive Operator : Type := OpEq | OpIn | OpNe.

(** Modelled from the spec: "an opaque reference expression to a named
    column" ([sql.ref(name)]), and a literal value. *)
Inductive Expression : Type :=
| SqlRef (column : string)
| Lit (v : Json).

(** Modelled from the spec: the host's [ExpressionBuilder<DB, Table>].  The
    table parameter exists only in the TypeScript types; it is kept as data
    so that two contexts bound to different parent queries are different
    values. *)
Inductive ExpressionBuilder : Type :=
| ExprBuilder (tables : list string).

(** Modelled from the spec: the host's immutable [SelectQueryBuilder] (section
    6, "a way to start an uncorrelated query rooted at a named table ... that
    can be further filtered/projected").  A builder value is the history of
    the calls that made it: [qb.where(l, op, r)] is [Where qb l op r], and
    so on.  Nothing is ever updated in place. *)
Inductive SelectQueryBuilder : Type :=
| SelectFrom (table : string)
| Select (qb : SelectQueryBuilder) (selection : Selection)
| SelectAll (qb : SelectQueryBuilder)
| Where (qb : SelectQueryBuilder) (lhs : string) (op : Operator) (rhs : Operand)
with Operand : Type :=
| ValueExpr (e : Expression)
| SubQuery (qb : SelectQueryBuilder)
with Selection : Type :=
| Column (name : string)
| Aliased (e : AliasedExpression)
with AliasedExpression : Type :=
| As (e : JsonAggregate) (alias : string)
with JsonAggregate : Type :=
| JsonObjectFrom (qb : SelectQueryBuilder)
| JsonArrayFrom (qb : SelectQueryBuilder).

(** One entry of the call log: a call of a host function made by
    [relations-builder.js], a call of the function held in [customizeQuery]
    (the caller's, or the identity put there when the caller gave none), or
    a call of the caller's column selector; the last two with the argument
    received. *)
Inductive Event : Type :=
| CallExpressionBuilder
| CallSelectFrom (table : string)
| CallSelect (column : string)
| CallWhere (lhs : string) (op : Operator)
| CallSqlRef (column : string)
| CallJsonObjectFrom
| CallJsonArrayFrom
| CallAs (alias : string)
| CallCustomizeQuery (arg : SelectQueryBuilder)
| CallSelectFunc (arg : SelectQueryBuilder).

End Host.
Export Host.

(** ** The logging monad *)

Definition M (A : Type) : Type := (A * list Event)%type.

Definition ret {A : Type} (a : A) : M A := (a, []).

Definition bind {A B : Type} (m : M A) (k : A -> M B) : M B :=
  let (a, l1) := m in
  let (b, l2) := k a in
  (b, l1 ++ l2).

Definition tell (e : Event) : M unit := (tt, [e]).

(** What a computation returns, and the calls it made, in order. *)
Definition value {A : Type} (m : M A) : A := fst m.
Definition calls {A : Type} (m : M A) : list Event := snd m.

Declare Scope log_scope.
Delimit Scope log_scope with log.
Notation "x <- c ;; k" := (bind c (fun x => k))
  (at level 61, c at next level, right associativity) : log_scope.
Notation "c ;;; k" := (bind c (fun _ => k))
  (at level 61, right associativity) : log_scope.
Open Scope log_scope.

(** ** The host's functions, as [relations-builder.js] calls them *)

(** The third argument of [where]: an expression, or a callback that the
    host calls at once to obtain the sub-query. *)
Inductive WhereArg : Type :=
| ArgExpression (e : Expression)
| ArgCallback (f : unit -> M SelectQueryBuilder).

Definition expressionBuilder : M ExpressionBuilder :=
  tell CallExpressionBuilder ;;; ret (ExprBuilder []).

Definition selectFrom (eb : ExpressionBuilder) (table : string)
  : M SelectQueryBuilder :=
  tell (CallSelectFrom table) ;;; ret (SelectFrom table).

Definition select (qb : SelectQueryBuilder) (col : string)
  : M SelectQueryBuilder :=
  tell (CallSelect col) ;;; ret (Select qb (Column col)).

Definition where_ (qb : SelectQueryBuilder) (lhs : string) (op : Operator)
  (rhs : WhereArg) : M SelectQueryBuilder :=
  tell (CallWhere lhs op) ;;;
  match rhs with
  | ArgExpression e => ret (Where qb lhs op (ValueExpr e))
  | ArgCallback f => sub <- f tt ;; ret (Where qb lhs op (SubQuery sub))
  end.

Definition sql_ref (col : string) : M Expression :=
  tell (CallSqlRef col) ;;; ret (SqlRef col).

Definition jsonObjectFrom (qb : SelectQueryBuilder) : M JsonAggregate :=
  tell CallJsonObjectFrom ;;; ret (JsonObjectFrom qb).

Definition jsonArrayFrom (qb : SelectQueryBuilder) : M JsonAggregate :=
  tell CallJsonArrayFrom ;;; ret (JsonArrayFrom qb).

Definition as_ (e : JsonAggregate) (alias : string) : M AliasedExpression :=
  tell (CallAs alias) ;;; ret (As e alias).

(** ** Data model of [relations-builder.d.ts] *)

Record RelationConfig : Type := {
  target : string;
  column : string;
  reference : string
}.

(** [ThroughRelationConfig extends RelationConfig]. *)
Record ThroughRelationConfig : Type := {
  relationConfig :> RelationConfig;
  through : string;
  throughColumn : string;
  throughReference : string
}.

(** The two caller-supplied functions.  The specification's data model
    makes both pure, so they are functions on builder values; each call the
    library makes of them is logged. *)
Definition CustomizeQueryFunction : Type :=
  SelectQueryBuilder -> SelectQueryBuilder.

Definition SelectFunction : Type :=
  SelectQueryBuilder -> SelectQueryBuilder.

Definition AliasedExpressionFactory : Type :=
  ExpressionBuilder -> M AliasedExpression.

Definition callCustomizeQuery (f : CustomizeQueryFunction)
  (qb : SelectQueryBuilder) : M SelectQueryBuilder :=
  tell (CallCustomizeQuery qb) ;;; ret (f qb).

Definition callSelectFunc (f : SelectFunction) (qb : SelectQueryBuilder)
  : M SelectQueryBuilder :=
  tell (CallSelectFunc qb) ;;; ret (f qb).

(** [customizeQuery ?? ((v) => v)] *)
Definition orIdentity (customizeQuery : option CustomizeQueryFunction)
  : CustomizeQueryFunction :=
  match customizeQuery with
  | Some f => f
  | None => fun v => v
  end.

(** ** [relations-builder.js] *)

Definition relationQueryFactory (config : RelationConfig)
  (customizeQuery : option CustomizeQueryFunction)
  : M (Expression -> M SelectQueryBuilder) :=
  let customizeQuery := orIdentity customizeQuery in
  eb <- expressionBuilder ;;
  from <- selectFrom eb (target config) ;;
  baseQuery <- callCustomizeQuery customizeQuery from ;;
  ret (fun expression =>
         where_ baseQuery (reference config) OpEq (ArgExpression expression)).

Definition throughRelationQueryFactory (config : ThroughRelationConfig)
  (customizeQuery : option CustomizeQueryFunction)
  : M (Expression -> M SelectQueryBuilder) :=
  let customizeQuery := orIdentity customizeQuery in
  eb <- expressionBuilder ;;
  from <- selectFrom eb (target config) ;;
  baseQuery <- callCustomizeQuery customizeQuery from ;;
  eb' <- expressionBuilder ;;
  fromThrough <- selectFrom eb' (through config) ;;
  baseSubQuery <- select fromThrough (throughReference config) ;;
  ret (fun expression =>
         where_ baseQuery (reference config) OpIn
           (ArgCallback (fun _ =>
              where_ baseSubQuery (throughColumn config) OpEq
                (ArgExpression expression)))).

Definition hasOne (relationName : string) (config : RelationConfig)
  (customizeQuery : option CustomizeQueryFunction)
  : M (SelectFunction -> AliasedExpressionFactory) :=
  query <- relationQueryFactory config customizeQuery ;;
  ref <- sql_ref (column config) ;;
  queryWithColumn <- query ref ;;
  let include := fun (selectFunc : SelectFunction) =>
    fun (_ : ExpressionBuilder) =>
      selected <- callSelectFunc selectFunc queryWithColumn ;;
      object <- jsonObjectFrom selected ;;
      as_ object relationName in
  ret include.

Definition hasOneNotNull (relationName : string) (config : RelationConfig)
  (customizeQuery : option CustomizeQueryFunction)
  : M (SelectFunction -> AliasedExpressionFactory) :=
  query <- relationQueryFactory config customizeQuery ;;
  ref <- sql_ref (column config) ;;
  queryWithColumn <- query ref ;;
  let include := fun (selectFunc : SelectFunction) =>
    fun (_ : ExpressionBuilder) =>
      selected <- callSelectFunc selectFunc queryWithColumn ;;
      object <- jsonObjectFrom selected ;;
      as_ object relationName in
  ret include.

Definition hasMany (relationName : string) (config : RelationConfig)
  (configureQuery : option CustomizeQueryFunction)
  : M (SelectFunction -> AliasedExpressionFactory) :=
  query <- relationQueryFactory config configureQuery ;;
  ref <- sql_ref (column config) ;;
  queryWithColumn <- query ref ;;
  let include := fun (selectFunc : SelectFunction) =>
    fun (_ : ExpressionBuilder) =>
      selected <- callSelectFunc selectFunc queryWithColumn ;;
      array <- jsonArrayFrom selected ;;
      as_ array relationName in
  ret include.

Definition hasManyThrough (relationName : string)
  (config : ThroughRelationConfig)
  (configureQuery : option CustomizeQueryFunction)
  : M (SelectFunction -> AliasedExpressionFactory) :=
  query <- throughRelationQueryFactory config configureQuery ;;
  ref <- sql_ref (column config) ;;
  queryWithColumn <- query ref ;;
  let include := fun (selectFunc : SelectFunction) =>
    fun (_ : ExpressionBuilder) =>
      selected <- callSelectFunc selectFunc queryWithColumn ;;
      array <- jsonArrayFrom selected ;;
      as_ array relationName in
  ret include.

(** The object [{ hasOne, hasOneNotNull, hasMany, hasManyThrough }]. *)
Record RelationFunctions : Type := {
  rf_hasOne : string -> RelationConfig -> option CustomizeQueryFunction ->
              M (SelectFunction -> AliasedExpressionFactory);
  rf_hasOneNotNull : string -> RelationConfig ->
              option CustomizeQueryFunction ->
              M (SelectFunction -> AliasedExpressionFactory);
  rf_hasMany : string -> RelationConfig -> option CustomizeQueryFunction ->
              M (SelectFunction -> AliasedExpressionFactory);
  rf_hasManyThrough : string -> ThroughRelationConfig ->
              option CustomizeQueryFunction ->
              M (SelectFunction -> AliasedExpressionFactory)
}.

Definition relationFunctions : RelationFunctions := {|
  rf_hasOne := hasOne;
  rf_hasOneNotNull := hasOneNotNull;
  rf_hasMany := hasMany;
  rf_hasManyThrough := hasManyThrough
|}.

(** [createRelationsBuilder()] returns [relations]. *)
Definition createRelationsBuilder (_ : unit) {T : Type}
  : string -> (RelationFunctions -> M T) -> M T :=
  fun table relationBuilder => relationBuilder relationFunctions.

(** ** Execution of the host's queries

    [relations-builder.js] never executes a query; the claims about produced
    values are about what the host and its engine do with the expression the
    library built.  The evaluator below is that collaborator. *)

Module Exec.

Definition Row : Type := list (string * Json).
Definition Database : Type := list (string * list Row).

(** The rows being processed by the enclosing queries, innermost first, each
    with the name of its table. *)
Definition Scope : Type := list (string * Row).

Fixpoint assoc {A : Type} (k : string) (l : list (string * A)) : option A :=
  match l with
  | [] => None
  | (k', v) :: l' => if String.eqb k k' then Some v else assoc k l'
  end.

Definition rowsOf (db : Database) (table : string) : list Row :=
  match assoc table db with
  | Some rows => rows
  | None => []
  end.

(** ["posts.user_id"] is [Some ("posts", "user_id")]; a name without a dot
    is [None]. *)
Fixpoint splitReference (s : string) : option (string * string) :=
  match s with
  | EmptyString => None
  | String c rest =>
      if Ascii.eqb c "."%char then Some (EmptyString, rest)
      else match splitReference rest with
           | Some (t, col) => Some (String c t, col)
           | None => None
           end
  end.

Definition cell (col : string) (r : Row) : Json :=
  match assoc col r with
  | Some v => v
  | None => JNull
  end.

Fixpoint resolveUnqualified (col : string) (scope : Scope) : Json :=
  match scope with
  | [] => JNull
  | (_, r) :: outer =>
      match assoc col r with
      | Some v => v
      | None => resolveUnqualified col outer
      end
  end.

(** Modelled from the spec: a column reference names a column of the row of
    an enclosing query; as in SQL the innermost query over the named table
    is the one meant. *)
Definition resolve (ref : string) (scope : Scope) : Json :=
  match splitReference ref with
  | Some (t, col) =>
      match assoc t scope with
      | Some r => cell col r
      | None => JNull
      end
  | None => resolveUnqualified ref scope
  end.

(** The name under which a selected column appears in the result row. *)
Definition columnName (ref : string) : string :=
  match splitReference ref with
  | Some (_, col) => col
  | None => ref
  end.

(** Modelled from the spec: "column of table equals opaque expression".  As
    in SQL, a null is equal to nothing. *)
Definition sqlEq (a b : Json) : bool :=
  match a, b with
  | JNum x, JNum y => Z.eqb x y
  | JStr x, JStr y => String.eqb x y
  | _, _ => false
  end.

Definition sqlNe (a b : Json) : bool :=
  match a, b with
  | JNum x, JNum y => negb (Z.eqb x y)
  | JStr x, JStr y => negb (String.eqb x y)
  | _, _ => false
  end.

(** Modelled from the spec: "column of table equals opaque expression" and
    "column of table is a member of a sub-query result set"; [vs] are the
    values of the right-hand side. *)
Definition holds (op : Operator) (v : Json) (vs : list Json) : bool :=
  match op with
  | OpEq => existsb (sqlEq v) vs
  | OpIn => existsb (sqlEq v) vs
  | OpNe => forallb (sqlNe v) vs
  end.

Definition evalExpression (scope : Scope) (e : Expression) : Json :=
  match e with
  | SqlRef col => resolve col scope
  | Lit v => v
  end.

Fixpoint tableOf (qb : SelectQueryBuilder) : string :=
  match qb with
  | SelectFrom t => t
  | Select qb' _ => tableOf qb'
  | SelectAll qb' => tableOf qb'
  | Where qb' _ _ _ => tableOf qb'
  end.

Definition firstColumn (r : Row) : Json :=
  match r with
  | [] => JNull
  | (_, v) :: _ => v
  end.

(** Modelled from the spec: execution of a query of the host, and the two
    JSON aggregations of section 6, "a single JSON object value (yielding
    null if no rows)" and "a JSON array value (yielding an empty array if no
    rows)".  [evalQuery] pairs every row of the table that passes the
    filters with the result row selected from it so far.  What the object
    aggregation does with more than one row is not specified; the first row
    is taken, as SQLite does. *)
Fixpoint evalQuery (db : Database) (scope : Scope) (qb : SelectQueryBuilder)
  {struct qb} : list (Row * Row) :=
  match qb with
  | SelectFrom t => map (fun r => (r, [])) (rowsOf db t)
  | Select qb' sel =>
      map (fun p : Row * Row =>
             (fst p,
              snd p ++ evalSelection db ((tableOf qb', fst p) :: scope) sel))
          (evalQuery db scope qb')
  | SelectAll qb' =>
      map (fun p : Row * Row => (fst p, snd p ++ fst p))
          (evalQuery db scope qb')
  | Where qb' lhs op rhs =>
      filter (fun p : Row * Row =>
                let scope' := (tableOf qb', fst p) :: scope in
                holds op (resolve lhs scope') (evalOperand db scope' rhs))
             (evalQuery db scope qb')
  end
with evalOperand (db : Database) (scope : Scope) (rhs : Operand)
  {struct rhs} : list Json :=
  match rhs with
  | ValueExpr e => [evalExpression scope e]
  | SubQuery qb => map (fun p : Row * Row => firstColumn (snd p))
                       (evalQuery db scope qb)
  end
with evalSelection (db : Database) (scope : Scope) (sel : Selection)
  {struct sel} : Row :=
  match sel with
  | Column name => [(columnName name, resolve name scope)]
  | Aliased e => [evalAliased db scope e]
  end
with evalAliased (db : Database) (scope : Scope) (e : AliasedExpression)
  {struct e} : string * Json :=
  match e with
  | As agg alias => (alias, evalAggregate db scope agg)
  end
with evalAggregate (db : Database) (scope : Scope) (agg : JsonAggregate)
  {struct agg} : Json :=
  match agg with
  | JsonObjectFrom qb =>
      match map snd (evalQuery db scope qb) with
      | [] => JNull
      | r :: _ => JObj r
      end
  | JsonArrayFrom qb =>
      JArr (map (fun p : Row * Row => JObj (snd p)) (evalQuery db scope qb))
  end.

(** The rows a query yields. *)
Definition execute (db : Database) (qb : SelectQueryBuilder) : list Row :=
  map snd (evalQuery db [] qb).

End Exec.
Export Exec.

(** ** The four relation kinds

    The specification's data model names the kinds and section 4.2 gives a
    dispatch table for them; the source has one constructor per kind. *)

Inductive RelationKind : Type :=
| HasOne
| HasOneNotNull
| HasMany
| HasManyThrough.

(** The constructor of [relations-builder.js] for a kind.  A simple kind
    reads only the [RelationConfig] part of the configuration. *)
Definition relationOfKind (kind : RelationKind) (relationName : string)
  (config : ThroughRelationConfig)
  (customizeQuery : option CustomizeQueryFunction)
  : M (SelectFunction -> AliasedExpressionFactory) :=
  match kind with
  | HasOne => hasOne relationName config customizeQuery
  | HasOneNotNull => hasOneNotNull relationName config customizeQuery
  | HasMany => hasMany relationName config customizeQuery
  | HasManyThrough => hasManyThrough relationName config customizeQuery
  end.

(** The dispatch table as the specification words it (section 4.2):
    which resolver, which aggregation. *)
Module Spec.

Definition resolverFor (kind : RelationKind) (config : ThroughRelationConfig)
  (customize : option CustomizeQueryFunction)
  : M (Expression -> M SelectQueryBuilder) :=
  match kind with
  | HasOne | HasOneNotNull | HasMany => relationQueryFactory config customize
  | HasManyThrough => throughRelationQueryFactory config customize
  end.

Definition aggregationFor (kind : RelationKind)
  : SelectQueryBuilder -> JsonAggregate :=
  match kind with
  | HasOne | HasOneNotNull => JsonObjectFrom
  | HasMany | HasManyThrough => JsonArrayFrom
  end.

Definition aggregationCallFor (kind : RelationKind) : Event :=
  match kind with
  | HasOne | HasOneNotNull => CallJsonObjectFrom
  | HasMany | HasManyThrough => CallJsonArrayFrom
  end.

End Spec.

(** ** Reading results and call logs *)

(** The sub-query on the right of the last filter of a query, if it has
    one: for the through resolver, the junction sub-query. *)
Definition junctionOf (qb : SelectQueryBuilder) : option SelectQueryBuilder :=
  match qb with
  | Where _ _ _ (SubQuery sub) => Some sub
  | _ => None
  end.

(** The query a filter was added to. *)
Definition filteredQuery (qb : SelectQueryBuilder) : option SelectQueryBuilder :=
  match qb with
  | Where base _ _ _ => Some base
  | _ => None
  end.

Definition isCustomizeCall (e : Event) : bool :=
  match e with
  | CallCustomizeQuery _ => true
  | _ => false
  end.

(** Calls that derive a correlation expression or build a query from its
    root: what an invocation would have to make if it re-derived the
    correlation and rebuilt the sub-query. *)
Definition constructsCorrelation (e : Event) : bool :=
  match e with
  | CallSqlRef _ | CallWhere _ _ | CallSelectFrom _ | CallExpressionBuilder =>
      true
  | _ => false
  end.

Definition rebuiltOnInvocation (compiled : AliasedExpressionFactory)
  (eb : ExpressionBuilder) : Prop :=
  existsb constructsCorrelation (calls (compiled eb)) = true.

(** Invoke a compiled relation once per context of the list, in order, in
    one run. *)
Fixpoint invokeAll (compiled : AliasedExpressionFactory)
  (ebs : list ExpressionBuilder) : M (list AliasedExpression) :=
  match ebs with
  | [] => ret []
  | eb :: rest =>
      e <- compiled eb ;;
      es <- invokeAll compiled rest ;;
      ret (e :: es)
  end.

(** ** Column selectors, matching rows and shapes *)

(** [(qb) => qb.select(s1).select(s2)...]: a column selector that is a
    projection, onto named columns or aliased expressions such as other
    compiled relations. *)
Definition selecting (sels : list Selection) : SelectFunction :=
  fun qb => fold_left Select sels qb.

(** The result row that [selecting sels] makes of a row [p] of a query over
    [table]. *)
Definition shapeOf (db : Database) (table : string) (scope : Scope)
  (sels : list Selection) (p : Row * Row) : Row :=
  snd p ++ flat_map (evalSelection db ((table, fst p) :: scope)) sels.

(** [config.reference = sql.ref(config.column)] at a row of the target. *)
Definition correlates (config : RelationConfig) (table : string)
  (scope : Scope) (p : Row * Row) : bool :=
  let scope' := (table, fst p) :: scope in
  sqlEq (resolve (reference config) scope') (resolve (column config) scope').

(** The [throughReference] values of the junction rows whose
    [throughColumn] equals [sql.ref(config.column)]. *)
Definition junctionValues (db : Database) (config : ThroughRelationConfig)
  (scope : Scope) : list Json :=
  map (fun j => resolve (throughReference config)
                        ((through config, j) :: scope))
      (filter (fun j =>
                 let scope' := (through config, j) :: scope in
                 sqlEq (resolve (throughColumn config) scope')
                       (resolve (column config) scope'))
              (rowsOf db (through config))).

(** [config.reference] is among those values, at a row of the target. *)
Definition correlatesThrough (db : Database) (config : ThroughRelationConfig)
  (table : string) (scope : Scope) (p : Row * Row) : bool :=
  let scope' := (table, fst p) :: scope in
  existsb (sqlEq (resolve (reference config) scope'))
          (junctionValues db config scope').

(** The rows of the (customized) target query that match the correlation,
    in the order that query yields them. *)
Definition matchingRows (db : Database) (scope : Scope)
  (config : RelationConfig) (customize : option CustomizeQueryFunction)
  : list (Row * Row) :=
  let baseQuery := orIdentity customize (SelectFrom (target config)) in
  filter (correlates config (tableOf baseQuery) scope)
         (evalQuery db scope baseQuery).

Definition matchingRowsThrough (db : Database) (scope : Scope)
  (config : ThroughRelationConfig)
  (customize : option CustomizeQueryFunction) : list (Row * Row) :=
  let baseQuery := orIdentity customize (SelectFrom (target config)) in
  filter (correlatesThrough db config (tableOf baseQuery) scope)
         (evalQuery db scope baseQuery).

(** The value a compiled relation produces for the rows of [scope]. *)
Definition produced (db : Database) (scope : Scope)
  (compiled : AliasedExpressionFactory) (eb : ExpressionBuilder) : Json :=
  snd (evalAliased db scope (value (compiled eb))).


(** ** The scenarios of the specification (section 8) *)

Module Scenario.

Definition profileConfig : RelationConfig := {|
  target := "profiles";
  column := "users.id";
  reference := "profiles.user_id"
|}.

Definition postsConfig : RelationConfig := {|
  target := "posts";
  column := "users.id";
  reference := "posts.user_id"
|}.

Definition tagsConfig : ThroughRelationConfig := {|
  relationConfig := {|
    target := "tags";
    column := "posts.id";
    reference := "tags.id"
  |};
  through := "post_tags";
  throughColumn := "post_tags.post_id";
  throughReference := "post_tags.tag_id"
|}.

Definition alice : Row := [("id", JNum 1); ("name", JStr "Alice")].
Definition bob : Row := [("id", JNum 2); ("name", JStr "Bob")].

Definition bobsProfile : Row :=
  [("id", JNum 10); ("user_id", JNum 2); ("bio", JStr "Bob's bio")].

Definition post (id user : Z) (title : string) : Row :=
  [("id", JNum id); ("user_id", JNum user); ("title", JStr title)].

Definition tag (id : Z) (name : string) : Row :=
  [("id", JNum id); ("name", JStr name)].

Definition postTag (id post tag : Z) : Row :=
  [("id", JNum id); ("post_id", JNum post); ("tag_id", JNum tag)].

Definition db : Database := [
  ("users", [alice; bob]);
  ("profiles", [bobsProfile]);
  ("posts", [post 100 2 "America first"; post 101 2 "Europe";
             post 102 2 "American pie"]);
  ("tags", [tag 1 "TypeScript"; tag 2 "Rust"; tag 3 "JavaScript"]);
  ("post_tags", [postTag 1 100 1; postTag 2 100 3])
].

Definition usersContext : ExpressionBuilder := ExprBuilder ["users"].
Definition postsContext : ExpressionBuilder := ExprBuilder ["posts"].

End Scenario.

(** ** Repeated use, and the callers of the test suite *)

(** Apply the function returned by a resolver to each expression of a list,
    in order, in one run. *)
Fixpoint correlateAll (query : Expression -> M SelectQueryBuilder)
  (exprs : list Expression) : M (list SelectQueryBuilder) :=
  match exprs with
  | [] => ret []
  | expr :: rest =>
      q <- query expr ;;
      qs <- correlateAll query rest ;;
      ret (q :: qs)
  end.

(** [rels.map((rel) => rel(eb))]: what the callback of a parent's [select]
    does with the compiled relations it lists. *)
Fixpoint invokeEach (rels : list AliasedExpressionFactory)
  (eb : ExpressionBuilder) : M (list AliasedExpression) :=
  match rels with
  | [] => ret []
  | rel :: rest =>
      e <- rel eb ;;
      es <- invokeEach rest eb ;;
      ret (e :: es)
  end.

(** The parent query of the tests:
    [db.selectFrom(table).select((eb) => [c1, ..., rel1(eb), ...])]. *)
Definition selectWithRelations (table : string) (cols : list string)
  (rels : list AliasedExpressionFactory) : M SelectQueryBuilder :=
  es <- invokeEach rels (ExprBuilder [table]) ;;
  ret (selecting (map Column cols ++ map Aliased es) (SelectFrom table)).

(** [(qb) => qb.where(lhs, op, v)]: the customize functions of the README
    and of the tests. *)
Definition addFilter (lhs : string) (op : Operator) (v : Json)
  : CustomizeQueryFunction :=
  fun qb => Where qb lhs op (ValueExpr (Lit v)).


(** One entry of the object a declaration function returns in the tests:
    [name: hasMany(name, config, customize)(selectFunc)], and so on. *)
Record Declaration : Type := {
  declKind : RelationKind;
  declName : string;
  declConfig : ThroughRelationConfig;
  declCustomize : option CustomizeQueryFunction;
  declSelect : SelectFunction
}.

(** The constructor of a kind, taken from the object the declaration
    function receives. *)
Definition constructorOf (rf : RelationFunctions) (kind : RelationKind)
  : string -> ThroughRelationConfig -> option CustomizeQueryFunction ->
    M (SelectFunction -> AliasedExpressionFactory) :=
  match kind with
  | HasOne => fun name config => rf_hasOne rf name config
  | HasOneNotNull => fun name config => rf_hasOneNotNull rf name config
  | HasMany => fun name config => rf_hasMany rf name config
  | HasManyThrough => rf_hasManyThrough rf
  end.

(** The declaration function of the tests,
    [({ hasOne, ... }) => ({ n1: hasOne(n1, c1)(s1), ... })]: the compiled
    relations, each under its name. *)
Fixpoint declareEach (rf : RelationFunctions) (ds : list Declaration)
  : M (list (string * AliasedExpressionFactory)) :=
  match ds with
  | [] => ret []
  | d :: rest =>
      include <- constructorOf rf (declKind d) (declName d) (declConfig d)
                   (declCustomize d) ;;
      rs <- declareEach rf rest ;;
      ret ((declName d, include (declSelect d)) :: rs)
  end.

(** A relation of a table to itself, and a junction table with a repeated
    row. *)
Module Variants.




Definition repeated : Database := [
  ("users", []);
  ("tags", [Scenario.tag 1 "TypeScript"; Scenario.tag 2 "Rust";
            Scenario.tag 3 "JavaScript"]);
  ("post_tags", [Scenario.postTag 2 100 3; Scenario.postTag 1 100 1;
                 Scenario.postTag 1 100 1; Scenario.postTag 2 100 3])
].

Definition authorConfig : RelationConfig := {|
  target := "users";
  column := "posts.user_id";
  reference := "users.id"
|}.


Definition orphan : Row :=
  [("id", JNum 103); ("user_id", JNull); ("title", JStr "Nobody's")].

End Variants.

(** ** Related rows, by key *)






(** ** Column selectors that are projections *)

(** One call of a projecting column selector: [qb.select(selection)] or
    [qb.selectAll()]. *)
Inductive Projection : Type :=
| Pick (selection : Selection)
| PickAll.

Definition projectStep (qb : SelectQueryBuilder) (step : Projection)
  : SelectQueryBuilder :=
  match step with
  | Pick selection => Select qb selection
  | PickAll => SelectAll qb
  end.

(** [(qb) => qb.select(...).selectAll()...]: any sequence of such calls. *)
Definition project (steps : list Projection) : SelectFunction :=
  fun qb => fold_left projectStep steps qb.

(** What one step adds to the result row made of the row [r] of a query
    over [table]. *)
Definition evalProjection (db : Database) (table : string) (scope : Scope)
  (r : Row) (step : Projection) : Row :=
  match step with
  | Pick selection => evalSelection db ((table, r) :: scope) selection
  | PickAll => r
  end.

(** The result row that [project steps] makes of a row [p] of a query over
    [table]: its selected shape. *)
Definition shapeOfSteps (db : Database) (table : string) (scope : Scope)
  (steps : list Projection) (p : Row * Row) : Row :=
  snd p ++ flat_map (evalProjection db table scope (fst p)) steps.

(** ** The same functions, with a store

    To speak of state one needs a store that the code could read or write.
    [Stateful] embeds [relations-builder.js] a second time, every function
    taking the store and returning it.  The two caller-supplied functions
    may read and write the store at will.  The host's builders are immutable
    values, so its functions are the constructors of [Host] and leave the
    store alone. *)

Module Stateful.

Section WithStore.

Variable Store : Type.

Definition St (A : Type) : Type := Store -> A * Store.

Definition ret {A : Type} (a : A) : St A := fun s => (a, s).

Definition bind {A B : Type} (m : St A) (k : A -> St B) : St B :=
  fun s => let (a, s') := m s in k a s'.

Definition CustomizeQueryFunction : Type :=
  SelectQueryBuilder -> St SelectQueryBuilder.

Definition SelectFunction : Type :=
  SelectQueryBuilder -> St SelectQueryBuilder.

Definition AliasedExpressionFactory : Type :=
  ExpressionBuilder -> St AliasedExpression.

(** [customizeQuery ?? ((v) => v)] *)
Definition orIdentity (customizeQuery : option CustomizeQueryFunction)
  : CustomizeQueryFunction :=
  match customizeQuery with
  | Some f => f
  | None => fun v => ret v
  end.

Definition relationQueryFactory (config : RelationConfig)
  (customizeQuery : option CustomizeQueryFunction)
  : St (Expression -> St SelectQueryBuilder) :=
  let customizeQuery := orIdentity customizeQuery in
  bind (customizeQuery (SelectFrom (target config))) (fun baseQuery =>
  ret (fun expression =>
         ret (Where baseQuery (reference config) OpEq
                    (ValueExpr expression)))).

Definition throughRelationQueryFactory (config : ThroughRelationConfig)
  (customizeQuery : option CustomizeQueryFunction)
  : St (Expression -> St SelectQueryBuilder) :=
  let customizeQuery := orIdentity customizeQuery in
  bind (customizeQuery (SelectFrom (target config))) (fun baseQuery =>
  let baseSubQuery :=
    Select (SelectFrom (through config)) (Column (throughReference config)) in
  ret (fun expression =>
         ret (Where baseQuery (reference config) OpIn
                (SubQuery (Where baseSubQuery (throughColumn config) OpEq
                                 (ValueExpr expression)))))).

Definition hasOne (relationName : string) (config : RelationConfig)
  (customizeQuery : option CustomizeQueryFunction)
  : St (SelectFunction -> AliasedExpressionFactory) :=
  bind (relationQueryFactory config customizeQuery) (fun query =>
  bind (query (SqlRef (column config))) (fun queryWithColumn =>
  let include := fun (selectFunc : SelectFunction) =>
    fun (_ : ExpressionBuilder) =>
      bind (selectFunc queryWithColumn) (fun selected =>
      ret (As (JsonObjectFrom selected) relationName)) in
  ret include)).

Definition hasOneNotNull (relationName : string) (config : RelationConfig)
  (customizeQuery : option CustomizeQueryFunction)
  : St (SelectFunction -> AliasedExpressionFactory) :=
  bind (relationQueryFactory config customizeQuery) (fun query =>
  bind (query (SqlRef (column config))) (fun queryWithColumn =>
  let include := fun (selectFunc : SelectFunction) =>
    fun (_ : ExpressionBuilder) =>
      bind (selectFunc queryWithColumn) (fun selected =>
      ret (As (JsonObjectFrom selected) relationName)) in
  ret include)).

Definition hasMany (relationName : string) (config : RelationConfig)
  (configureQuery : option CustomizeQueryFunction)
  : St (SelectFunction -> AliasedExpressionFactory) :=
  bind (relationQueryFactory config configureQuery) (fun query =>
  bind (query (SqlRef (column config))) (fun queryWithColumn =>
  let include := fun (selectFunc : SelectFunction) =>
    fun (_ : ExpressionBuilder) =>
      bind (selectFunc queryWithColumn) (fun selected =>
      ret (As (JsonArrayFrom selected) relationName)) in
  ret include)).

Definition hasManyThrough (relationName : string)
  (config : ThroughRelationConfig)
  (configureQuery : option CustomizeQueryFunction)
  : St (SelectFunction -> AliasedExpressionFactory) :=
  bind (throughRelationQueryFactory config configureQuery) (fun query =>
  bind (query (SqlRef (column config))) (fun queryWithColumn =>
  let include := fun (selectFunc : SelectFunction) =>
    fun (_ : ExpressionBuilder) =>
      bind (selectFunc queryWithColumn) (fun selected =>
      ret (As (JsonArrayFrom selected) relationName)) in
  ret include)).

Definition relationOfKind (kind : RelationKind) (relationName : string)
  (config : ThroughRelationConfig)
  (customizeQuery : option CustomizeQueryFunction)
  : St (SelectFunction -> AliasedExpressionFactory) :=
  match kind with
  | HasOne => hasOne relationName config customizeQuery
  | HasOneNotNull => hasOneNotNull relationName config customizeQuery
  | HasMany => hasMany relationName config customizeQuery
  | HasManyThrough => hasManyThrough relationName config customizeQuery
  end.

(** Invoke a compiled relation once for each context of the list, in
    order, in one run. *)
Fixpoint invokeAll (compiled : AliasedExpressionFactory)
  (ebs : list ExpressionBuilder) : St (list AliasedExpression) :=
  match ebs with
  | [] => ret []
  | eb :: rest =>
      bind (compiled eb) (fun e =>
      bind (invokeAll compiled rest) (fun es =>
      ret (e :: es)))
  end.

(** Declare a relation, apply the result to the column selector, and
    invoke the compiled relation for each context of the list. *)
Definition declareAndInvoke (kind : RelationKind) (relationName : string)
  (config : ThroughRelationConfig)
  (customizeQuery : option CustomizeQueryFunction)
  (selectFunc : SelectFunction) (ebs : list ExpressionBuilder)
  : St (list AliasedExpression) :=
  bind (relationOfKind kind relationName config customizeQuery)
       (fun include => invokeAll (include selectFunc) ebs).


End WithStore.

Arguments ret {Store A} a.
Arguments bind {Store A B} m k.

(** A column selector that counts its calls in the store and selects a
    column named after the count: type-valid, and not pure. *)
Definition countingSelector : SelectFunction nat :=
  fun qb n =>
    (Select qb (Column (if Nat.eqb n 0 then "first" else "later")), S n).

End Stateful.

(** * Properties *)

(** ** The logging monad *)

Lemma value_bind {A B : Type} (m : M A) (k : A -> M B) :
  value (x <- m ;; k x) = value (k (value m)).
Proof.
  destruct m as [a l1]. unfold bind, value. simpl.
  destruct (k a) as [b l2]. reflexivity.
Qed.

(** ** The resolvers *)

(** C1. For every configuration and optional customize function, the simple
    resolver selects from [config.target], calls the customize function (the
    identity when none is given) once on that query, and returns a function
    that, for every expression [expr], returns the customized query filtered
    by [config.reference = expr]. *)
Theorem relationQueryFactory_correct :
  forall (config : RelationConfig) (expr : Expression),
    (forall f : CustomizeQueryFunction,
        value (value (relationQueryFactory config (Some f)) expr)
        = Where (f (SelectFrom (target config))) (reference config) OpEq
                (ValueExpr expr))
    /\ value (value (relationQueryFactory config None) expr)
       = Where (SelectFrom (target config)) (reference config) OpEq
               (ValueExpr expr)
    /\ (forall customize : option CustomizeQueryFunction,
           calls (relationQueryFactory config customize)
           = [CallExpressionBuilder; CallSelectFrom (target config);
              CallCustomizeQuery (SelectFrom (target config))]
           /\ calls (value (relationQueryFactory config customize) expr)
              = [CallWhere (reference config) OpEq]).
Proof.
  intros config expr. repeat split.
Qed.

(** C2. For every through configuration and optional customize function,
    the through resolver builds the target query exactly as the simple
    resolver does, builds the junction query [SELECT throughReference FROM
    through] on its own, and returns a function that, for every [expr],
    returns the target query filtered by [reference IN (junction query
    filtered by throughColumn = expr)]. *)
Theorem throughRelationQueryFactory_correct :
  forall (config : ThroughRelationConfig) (expr : Expression),
    let junctionQuery :=
      Select (SelectFrom (through config)) (Column (throughReference config))
    in
    (forall f : CustomizeQueryFunction,
        value (value (throughRelationQueryFactory config (Some f)) expr)
        = Where (f (SelectFrom (target config))) (reference config) OpIn
            (SubQuery (Where junctionQuery (throughColumn config) OpEq
                             (ValueExpr expr))))
    /\ value (value (throughRelationQueryFactory config None) expr)
       = Where (SelectFrom (target config)) (reference config) OpIn
           (SubQuery (Where junctionQuery (throughColumn config) OpEq
                            (ValueExpr expr)))
    /\ (forall customize : option CustomizeQueryFunction,
           filteredQuery
             (value (value (throughRelationQueryFactory config customize) expr))
           = filteredQuery
               (value (value (relationQueryFactory config customize) expr))
           /\ calls (throughRelationQueryFactory config customize)
              = calls (relationQueryFactory config customize)
                ++ [CallExpressionBuilder; CallSelectFrom (through config);
                    CallSelect (throughReference config)]
           /\ calls (value (throughRelationQueryFactory config customize) expr)
              = [CallWhere (reference config) OpIn;
                 CallWhere (throughColumn config) OpEq]).
Proof.
  intros config expr. repeat split.
Qed.

(** C9. The function returned by the simple resolver yields a query for
    every expression, and the expression is never looked at: there is one
    query [baseQuery], fixed by the resolver, such that the result for
    [expr] is [baseQuery] with the filter [reference = expr] added, [expr]
    being stored as it came, and the only call made is that [where]. *)
Theorem correlate_total_and_opaque :
  forall (config : RelationConfig)
         (customize : option CustomizeQueryFunction),
  exists baseQuery : SelectQueryBuilder,
    forall expr : Expression,
      value (relationQueryFactory config customize) expr
      = (Where baseQuery (reference config) OpEq (ValueExpr expr),
         [CallWhere (reference config) OpEq]).
Proof.
  intros config customize.
  exists (orIdentity customize (SelectFrom (target config))).
  intros expr. reflexivity.
Qed.

(** C7. For every through configuration, the junction sub-query is the same
    with and without a customize function; the customize function is called
    exactly once, on the query [SELECT FROM target], before any filter is
    added, and its result is the query the membership filter is added to. *)
Theorem customize_leaves_junction_alone :
  forall (config : ThroughRelationConfig) (f : CustomizeQueryFunction)
         (expr : Expression),
    let customized := throughRelationQueryFactory config (Some f) in
    let plain := throughRelationQueryFactory config None in
    let log := calls customized ++ calls (value customized expr) in
    junctionOf (value (value customized expr))
    = junctionOf (value (value plain expr))
    /\ junctionOf (value (value customized expr))
       = Some (Where (Select (SelectFrom (through config))
                             (Column (throughReference config)))
                     (throughColumn config) OpEq (ValueExpr expr))
    /\ filteredQuery (value (value customized expr))
       = Some (f (SelectFrom (target config)))
    /\ log = [CallExpressionBuilder; CallSelectFrom (target config);
              CallCustomizeQuery (SelectFrom (target config));
              CallExpressionBuilder; CallSelectFrom (through config);
              CallSelect (throughReference config);
              CallWhere (reference config) OpIn;
              CallWhere (throughColumn config) OpEq]
    /\ length (filter isCustomizeCall log) = 1.
Proof.
  intros config f expr. repeat split.
Qed.

(** ** The relation constructors *)

(** C3. For every name, configuration, optional customize function and
    column selector: [hasOne] and [hasOneNotNull] apply the selector to the
    query of the simple resolver and wrap it in the object aggregation;
    [hasMany] does so with the array aggregation; [hasManyThrough] applies
    the selector to the query of the through resolver and wraps it in the
    array aggregation; every one aliases the aggregate to the relation name.
    This is the dispatch table of the specification. *)
Theorem relation_constructors_dispatch :
  forall (name : string) (config : RelationConfig)
         (tconfig : ThroughRelationConfig)
         (customize : option CustomizeQueryFunction)
         (selectFunc : SelectFunction) (eb : ExpressionBuilder),
    let simple :=
      value (value (relationQueryFactory config customize)
                   (SqlRef (column config))) in
    let viaJunction :=
      value (value (throughRelationQueryFactory tconfig customize)
                   (SqlRef (column tconfig))) in
    value (value (hasOne name config customize) selectFunc eb)
    = As (JsonObjectFrom (selectFunc simple)) name
    /\ value (value (hasOneNotNull name config customize) selectFunc eb)
       = As (JsonObjectFrom (selectFunc simple)) name
    /\ value (value (hasMany name config customize) selectFunc eb)
       = As (JsonArrayFrom (selectFunc simple)) name
    /\ value (value (hasManyThrough name tconfig customize) selectFunc eb)
       = As (JsonArrayFrom (selectFunc viaJunction)) name
    /\ (forall kind : RelationKind,
           value (value (relationOfKind kind name tconfig customize)
                        selectFunc eb)
           = As (Spec.aggregationFor kind
                   (selectFunc
                      (value (value (Spec.resolverFor kind tconfig customize)
                                    (SqlRef (column tconfig))))))
                name).
Proof.
  intros name config tconfig customize selectFunc eb.
  repeat split. intros kind. destruct kind; reflexivity.
Qed.

(** C10. The entry point returned by [createRelationsBuilder()] never reads
    its table name: for any two names and any declaration function the
    results are equal, and they are the declaration function applied to the
    record of the four constructors. *)
Theorem relations_ignores_table :
  forall (T : Type) (t1 t2 : string) (f : RelationFunctions -> M T),
    createRelationsBuilder tt t1 f = createRelationsBuilder tt t2 f
    /\ createRelationsBuilder tt t1 f = f relationFunctions
    /\ rf_hasOne relationFunctions = hasOne
    /\ rf_hasOneNotNull relationFunctions = hasOneNotNull
    /\ rf_hasMany relationFunctions = hasMany
    /\ rf_hasManyThrough relationFunctions = hasManyThrough.
Proof.
  intros T t1 t2 f. repeat split.
Qed.

(** ** Invocation of a compiled relation *)

Lemma invocation_of_kind (kind : RelationKind) (name : string)
  (config : ThroughRelationConfig)
  (customize : option CustomizeQueryFunction) (selectFunc : SelectFunction)
  (eb : ExpressionBuilder) :
  let queryWithColumn :=
    value (value (Spec.resolverFor kind config customize)
                 (SqlRef (column config))) in
  value (relationOfKind kind name config customize) selectFunc eb
  = (As (Spec.aggregationFor kind (selectFunc queryWithColumn)) name,
     [CallSelectFunc queryWithColumn; Spec.aggregationCallFor kind;
      CallAs name]).
Proof.
  destruct kind; reflexivity.
Qed.

(** C5, as the code has it.  For a relation of any kind the correlation
    expression is [sql.ref(config.column)], derived from the configuration
    when the constructor is called, and the correlated sub-query is built
    then, once.  An invocation does not read its context: it calls the
    column selector on that one sub-query, wraps the result in the
    aggregation of the kind, aliases it, and makes no other call. *)
Theorem correlation_built_at_declaration :
  forall (kind : RelationKind) (name : string)
         (config : ThroughRelationConfig)
         (customize : option CustomizeQueryFunction)
         (selectFunc : SelectFunction),
    let resolver := Spec.resolverFor kind config customize in
    let declared := relationOfKind kind name config customize in
    let queryWithColumn := value (value resolver (SqlRef (column config))) in
    calls declared
    = calls resolver ++ [CallSqlRef (column config)]
      ++ calls (value resolver (SqlRef (column config)))
    /\ (forall eb : ExpressionBuilder,
           value declared selectFunc eb
           = (As (Spec.aggregationFor kind (selectFunc queryWithColumn)) name,
              [CallSelectFunc queryWithColumn; Spec.aggregationCallFor kind;
               CallAs name]))
    /\ (forall eb : ExpressionBuilder,
           existsb constructsCorrelation (calls (value declared selectFunc eb))
           = false).
Proof.
  intros kind name config customize selectFunc resolver declared
         queryWithColumn.
  split; [| split].
  - unfold declared, resolver. destruct kind; reflexivity.
  - intros eb. apply invocation_of_kind.
  - intros eb. unfold declared. rewrite invocation_of_kind.
    destruct kind; reflexivity.
Qed.

(** C5, as stated, fails: invoking the compiled [profile] relation of the
    README derives no correlation expression and builds no query. *)
Lemma invocation_does_not_rebuild :
  ~ rebuiltOnInvocation
      (value (hasOne "profile" Scenario.profileConfig None)
             (selecting [Column "bio"]))
      Scenario.usersContext.
Proof.
  unfold rebuiltOnInvocation. simpl. discriminate.
Qed.

(** ** Produced values *)

Lemma evalQuery_Select (db : Database) (scope : Scope)
  (qb : SelectQueryBuilder) (sel : Selection) :
  evalQuery db scope (Select qb sel)
  = map (fun p : Row * Row =>
           (fst p,
            snd p ++ evalSelection db ((tableOf qb, fst p) :: scope) sel))
        (evalQuery db scope qb).
Proof. reflexivity. Qed.

Lemma evalQuery_Where (db : Database) (scope : Scope)
  (qb : SelectQueryBuilder) (lhs : string) (op : Operator) (rhs : Operand) :
  evalQuery db scope (Where qb lhs op rhs)
  = filter (fun p : Row * Row =>
              let scope' := (tableOf qb, fst p) :: scope in
              holds op (resolve lhs scope') (evalOperand db scope' rhs))
           (evalQuery db scope qb).
Proof. reflexivity. Qed.

(** A projection keeps the rows and their order, and turns each into its
    shape. *)
Lemma evalQuery_selecting (db : Database) (scope : Scope)
  (sels : list Selection) :
  forall qb,
    evalQuery db scope (selecting sels qb)
    = map (fun p => (fst p, shapeOf db (tableOf qb) scope sels p))
          (evalQuery db scope qb).
Proof.
  unfold selecting.
  induction sels as [| sel sels IH]; intros qb; simpl fold_left.
  - rewrite <- (map_id (evalQuery db scope qb)) at 1.
    apply map_ext. intros [r out]. unfold shapeOf. simpl.
    now rewrite app_nil_r.
  - rewrite IH, evalQuery_Select, map_map.
    apply map_ext. intros [r out]. unfold shapeOf. simpl.
    now rewrite <- app_assoc.
Qed.

(** The junction sub-query yields the [throughReference] values of the
    junction rows whose [throughColumn] equals the correlation expression. *)
Lemma evalOperand_junction (db : Database) (config : ThroughRelationConfig)
  (scope : Scope) :
  evalOperand db scope
    (SubQuery (Where (Select (SelectFrom (through config))
                             (Column (throughReference config)))
                     (throughColumn config) OpEq
                     (ValueExpr (SqlRef (column config)))))
  = junctionValues db config scope.
Proof.
  unfold junctionValues. simpl.
  induction (rowsOf db (through config)) as [| j rows IH]; simpl.
  - reflexivity.
  - rewrite orb_false_r.
    destruct (sqlEq _ _); simpl; now rewrite IH.
Qed.

Lemma evalQuery_simple (db : Database) (scope : Scope)
  (config : RelationConfig) (customize : option CustomizeQueryFunction) :
  evalQuery db scope
    (value (value (relationQueryFactory config customize)
                  (SqlRef (column config))))
  = matchingRows db scope config customize.
Proof.
  unfold matchingRows.
  change (value (value (relationQueryFactory config customize)
                       (SqlRef (column config))))
    with (Where (orIdentity customize (SelectFrom (target config)))
                (reference config) OpEq (ValueExpr (SqlRef (column config)))).
  rewrite evalQuery_Where. apply filter_ext. intros p.
  unfold correlates. simpl. apply orb_false_r.
Qed.

Lemma evalQuery_through (db : Database) (scope : Scope)
  (config : ThroughRelationConfig)
  (customize : option CustomizeQueryFunction) :
  evalQuery db scope
    (value (value (throughRelationQueryFactory config customize)
                  (SqlRef (column config))))
  = matchingRowsThrough db scope config customize.
Proof.
  unfold matchingRowsThrough.
  change (value (value (throughRelationQueryFactory config customize)
                       (SqlRef (column config))))
    with (Where (orIdentity customize (SelectFrom (target config)))
                (reference config) OpIn
                (SubQuery (Where (Select (SelectFrom (through config))
                                         (Column (throughReference config)))
                                 (throughColumn config) OpEq
                                 (ValueExpr (SqlRef (column config)))))).
  rewrite evalQuery_Where. apply filter_ext. intros p.
  unfold correlatesThrough. cbv zeta.
  now rewrite evalOperand_junction.
Qed.

(** What each aggregation produces from the rows of the selected,
    correlated query. *)
Lemma produced_object (db : Database) (scope : Scope) (name : string)
  (qb : SelectQueryBuilder) (sels : list Selection) :
  snd (evalAliased db scope (As (JsonObjectFrom (selecting sels qb)) name))
  = match evalQuery db scope qb with
    | [] => JNull
    | p :: _ => JObj (shapeOf db (tableOf qb) scope sels p)
    end.
Proof.
  simpl. rewrite evalQuery_selecting, map_map. simpl.
  destruct (evalQuery db scope qb); reflexivity.
Qed.

Lemma produced_array (db : Database) (scope : Scope) (name : string)
  (qb : SelectQueryBuilder) (sels : list Selection) :
  snd (evalAliased db scope (As (JsonArrayFrom (selecting sels qb)) name))
  = JArr (map (fun p => JObj (shapeOf db (tableOf qb) scope sels p))
              (evalQuery db scope qb)).
Proof.
  simpl. rewrite evalQuery_selecting, map_map. reflexivity.
Qed.

Lemma produced_hasOne (db : Database) (scope : Scope) (name : string)
  (config : RelationConfig) (customize : option CustomizeQueryFunction)
  (sels : list Selection) (eb : ExpressionBuilder) :
  produced db scope (value (hasOne name config customize) (selecting sels))
           eb
  = match matchingRows db scope config customize with
    | [] => JNull
    | p :: _ =>
        JObj (shapeOf db
                (tableOf (orIdentity customize (SelectFrom (target config))))
                scope sels p)
    end.
Proof.
  unfold produced.
  change (value (value (hasOne name config customize) (selecting sels) eb))
    with (As (JsonObjectFrom
                (selecting sels
                   (value (value (relationQueryFactory config customize)
                                 (SqlRef (column config)))))) name).
  rewrite produced_object, evalQuery_simple. reflexivity.
Qed.

Lemma produced_hasMany (db : Database) (scope : Scope) (name : string)
  (config : RelationConfig) (customize : option CustomizeQueryFunction)
  (sels : list Selection) (eb : ExpressionBuilder) :
  produced db scope (value (hasMany name config customize) (selecting sels))
           eb
  = JArr (map (fun p =>
                 JObj (shapeOf db
                         (tableOf (orIdentity customize
                                     (SelectFrom (target config))))
                         scope sels p))
              (matchingRows db scope config customize)).
Proof.
  unfold produced.
  change (value (value (hasMany name config customize) (selecting sels) eb))
    with (As (JsonArrayFrom
                (selecting sels
                   (value (value (relationQueryFactory config customize)
                                 (SqlRef (column config)))))) name).
  rewrite produced_array, evalQuery_simple. reflexivity.
Qed.

Lemma produced_hasManyThrough (db : Database) (scope : Scope) (name : string)
  (config : ThroughRelationConfig)
  (customize : option CustomizeQueryFunction)
  (sels : list Selection) (eb : ExpressionBuilder) :
  produced db scope
           (value (hasManyThrough name config customize) (selecting sels))
           eb
  = JArr (map (fun p =>
                 JObj (shapeOf db
                         (tableOf (orIdentity customize
                                     (SelectFrom (target config))))
                         scope sels p))
              (matchingRowsThrough db scope config customize)).
Proof.
  unfold produced.
  change (value (value (hasManyThrough name config customize)
                       (selecting sels) eb))
    with (As (JsonArrayFrom
                (selecting sels
                   (value (value (throughRelationQueryFactory config customize)
                                 (SqlRef (column config)))))) name).
  rewrite produced_array, evalQuery_through. reflexivity.
Qed.

(** For a relation to another table, the correlation compares the
    [reference] of the target row with the [column] of the row of the
    enclosing query.  (When the target is the table of the enclosing query
    itself, [sql.ref(config.column)] names the target row, as in SQL.) *)
Lemma resolve_enclosing (t col ref table : string) (r : Row) (scope : Scope) :
  splitReference ref = Some (t, col) ->
  t <> table ->
  resolve ref ((table, r) :: scope) = resolve ref scope.
Proof.
  intros Hsplit Hneq. unfold resolve. rewrite Hsplit. simpl.
  destruct (String.eqb_spec t table) as [Heq | _].
  - contradiction.
  - reflexivity.
Qed.

(** C6. [hasOneNotNull] is [hasOne]: for the same arguments the two return
    the same compiled relation and make the same calls; and like [hasOne],
    [hasOneNotNull] produces [null] when no row matches. *)
Theorem hasOneNotNull_is_hasOne :
  forall (name : string) (config : RelationConfig)
         (customize : option CustomizeQueryFunction),
    hasOneNotNull name config customize = hasOne name config customize
    /\ (forall (db : Database) (scope : Scope) (sels : list Selection)
               (eb : ExpressionBuilder),
           matchingRows db scope config customize = [] ->
           produced db scope
                    (value (hasOneNotNull name config customize)
                           (selecting sels)) eb
           = JNull).
Proof.
  intros name config customize. split.
  - reflexivity.
  - intros db scope sels eb Hnone.
    change (hasOneNotNull name config customize)
      with (hasOne name config customize).
    rewrite produced_hasOne, Hnone. reflexivity.
Qed.

Lemma hasOneNotNull_is_hasOne_witness :
  produced Scenario.db [("users", Scenario.alice)]
    (value (hasOneNotNull "profile" Scenario.profileConfig None)
           (selecting [Column "bio"]))
    Scenario.usersContext
  = JNull.
Proof.
  apply (proj2 (hasOneNotNull_is_hasOne "profile" Scenario.profileConfig None)).
  reflexivity.
Defined.

(** ** The scenarios of section 8, executed *)

Example scenario_profiles :
  execute Scenario.db
    (Select (Select (SelectFrom "users") (Column "name"))
       (Aliased
          (value (value (hasOne "profile" Scenario.profileConfig None)
                        (selecting [Column "bio"]) Scenario.usersContext))))
  = [[("name", JStr "Alice"); ("profile", JNull)];
     [("name", JStr "Bob");
      ("profile", JObj [("bio", JStr "Bob's bio")])]].
Proof. reflexivity. Qed.

Example scenario_posts :
  execute Scenario.db
    (Select (Select (SelectFrom "users") (Column "name"))
       (Aliased
          (value (value (hasMany "posts" Scenario.postsConfig None)
                        (selecting [Column "title"]) Scenario.usersContext))))
  = [[("name", JStr "Alice"); ("posts", JArr [])];
     [("name", JStr "Bob");
      ("posts", JArr [JObj [("title", JStr "America first")];
                      JObj [("title", JStr "Europe")];
                      JObj [("title", JStr "American pie")]])]].
Proof. reflexivity. Qed.

Example scenario_tags :
  execute Scenario.db
    (Select (Select (SelectFrom "posts") (Column "id"))
       (Aliased
          (value (value (hasManyThrough "tags" Scenario.tagsConfig None)
                        (selecting [Column "name"]) Scenario.postsContext))))
  = [[("id", JNum 100);
      ("tags", JArr [JObj [("name", JStr "TypeScript")];
                     JObj [("name", JStr "JavaScript")]])];
     [("id", JNum 101); ("tags", JArr [])];
     [("id", JNum 102); ("tags", JArr [])]].
Proof. reflexivity. Qed.

Example scenario_customized :
  execute Scenario.db
    (Select (SelectFrom "users")
       (Aliased
          (value (value (hasMany "others" Scenario.postsConfig
                           (Some (fun qb =>
                                    Where qb "title" OpNe
                                      (ValueExpr (Lit (JStr "Europe"))))))
                        (selecting [Column "title"]) Scenario.usersContext))))
  = [[("others", JArr [])];
     [("others", JArr [JObj [("title", JStr "America first")];
                       JObj [("title", JStr "American pie")]])]].
Proof. reflexivity. Qed.

(** A relation nested in the column selector of another one. *)
Example scenario_nested :
  let tags :=
    value (hasManyThrough "tags" Scenario.tagsConfig None)
          (selecting [Column "name"]) in
  let posts :=
    value (hasMany "posts" Scenario.postsConfig None)
          (fun qb =>
             Select (Select qb (Column "id"))
                    (Aliased (value (tags Scenario.postsContext)))) in
  execute Scenario.db
    (Select (Select (SelectFrom "users") (Column "name"))
            (Aliased (value (posts Scenario.usersContext))))
  = [[("name", JStr "Alice"); ("posts", JArr [])];
     [("name", JStr "Bob");
      ("posts",
       JArr [JObj [("id", JNum 100);
                   ("tags", JArr [JObj [("name", JStr "TypeScript")];
                                  JObj [("name", JStr "JavaScript")]])];
             JObj [("id", JNum 101); ("tags", JArr [])];
             JObj [("id", JNum 102); ("tags", JArr [])]])]].
Proof. reflexivity. Qed.

(** * Further properties of the code *)

(** ** Lists *)

Lemma calls_bind {A B : Type} (m : M A) (k : A -> M B) :
  calls (x <- m ;; k x) = calls m ++ calls (k (value m)).
Proof.
  destruct m as [a l1]. unfold bind, calls, value. simpl.
  destruct (k a) as [b l2]. reflexivity.
Qed.

Lemma bind_run {A B : Type} (m : M A) (k : A -> M B) :
  (x <- m ;; k x)
  = (value (k (value m)), calls m ++ calls (k (value m))).
Proof.
  destruct m as [a l1]. unfold bind, calls, value. simpl.
  destruct (k a) as [b l2]. reflexivity.
Qed.


Lemma filter_of_map {A B : Type} (f : B -> bool) (g : A -> B) (l : list A) :
  filter f (map g l) = map g (filter (fun x => f (g x)) l).
Proof.
  induction l as [| x l IH]; simpl.
  - reflexivity.
  - destruct (f (g x)); simpl; now rewrite IH.
Qed.

Lemma existsb_map_filter {A B : Type} (f : B -> bool) (g : A -> B)
  (h : A -> bool) (l : list A) :
  existsb f (map g (filter h l)) = existsb (fun x => h x && f (g x)) l.
Proof.
  induction l as [| x l IH]; simpl.
  - reflexivity.
  - destruct (h x); simpl; now rewrite IH.
Qed.

Lemma existsb_same_elements {A : Type} (f : A -> bool) (l l' : list A) :
  (forall x, In x l <-> In x l') -> existsb f l = existsb f l'.
Proof.
  intros Hsame.
  destruct (existsb f l) eqn:Hl, (existsb f l') eqn:Hl'; try reflexivity.
  - apply existsb_exists in Hl. destruct Hl as [x [Hin Hf]].
    assert (existsb f l' = true)
      by (apply existsb_exists; exists x; split; [now apply Hsame | exact Hf]).
    congruence.
  - apply existsb_exists in Hl'. destruct Hl' as [x [Hin Hf]].
    assert (existsb f l = true)
      by (apply existsb_exists; exists x; split; [now apply Hsame | exact Hf]).
    congruence.
Qed.

Lemma flat_map_const_length {A B : Type} (l : list B) (xs : list A) :
  length (flat_map (fun _ => l) xs) = length l * length xs.
Proof.
  induction xs as [| x xs IH]; simpl.
  - now rewrite Nat.mul_0_r.
  - rewrite length_app, IH. lia.
Qed.

Lemma flat_map_const_filter {A B : Type} (f : B -> bool) (l : list B)
  (xs : list A) :
  filter f l = [] -> filter f (flat_map (fun _ => l) xs) = [].
Proof.
  intros Hl. induction xs as [| x xs IH]; simpl.
  - reflexivity.
  - now rewrite filter_app, Hl, IH.
Qed.

Lemma flat_map_const_existsb {A B : Type} (f : B -> bool) (l : list B)
  (xs : list A) :
  existsb f l = false -> existsb f (flat_map (fun _ => l) xs) = false.
Proof.
  intros Hl. induction xs as [| x xs IH]; simpl.
  - reflexivity.
  - now rewrite existsb_app, Hl, IH.
Qed.

(** ** Repeated use of what the code returns *)

Lemma invokeAll_run (compiled : AliasedExpressionFactory)
  (e : AliasedExpression) (log : list Event) :
  (forall eb, compiled eb = (e, log)) ->
  forall ebs,
    invokeAll compiled ebs
    = (map (fun _ => e) ebs, flat_map (fun _ => log) ebs).
Proof.
  intros Hc ebs. induction ebs as [| eb rest IH]; simpl.
  - reflexivity.
  - rewrite Hc, IH. unfold bind, ret. simpl. now rewrite app_nil_r.
Qed.

Lemma correlateAll_run (query : Expression -> M SelectQueryBuilder)
  (mk : Expression -> SelectQueryBuilder) (log : list Event) :
  (forall expr, query expr = (mk expr, log)) ->
  forall exprs,
    correlateAll query exprs
    = (map mk exprs, flat_map (fun _ => log) exprs).
Proof.
  intros Hq exprs. induction exprs as [| expr rest IH]; simpl.
  - reflexivity.
  - rewrite Hq, IH. unfold bind, ret. simpl. now rewrite app_nil_r.
Qed.

(** X1. Invoking a compiled relation of any kind [n] times, with any contexts,
    returns [n] times the same aliased expression and makes [3 n] calls:
    each time the column selector on the sub-query built at declaration,
    the aggregation and the alias.  The resolver, [sql.ref] and the
    customize function are never run again. *)
Theorem repeated_invocations :
  forall (kind : RelationKind) (name : string)
         (config : ThroughRelationConfig)
         (customize : option CustomizeQueryFunction)
         (selectFunc : SelectFunction) (ebs : list ExpressionBuilder),
    let compiled := value (relationOfKind kind name config customize)
                          selectFunc in
    let queryWithColumn :=
      value (value (Spec.resolverFor kind config customize)
                   (SqlRef (column config))) in
    let run := invokeAll compiled ebs in
    value run
    = map (fun _ => As (Spec.aggregationFor kind (selectFunc queryWithColumn))
                       name) ebs
    /\ calls run
       = flat_map (fun _ => [CallSelectFunc queryWithColumn;
                             Spec.aggregationCallFor kind; CallAs name]) ebs
    /\ length (calls run) = 3 * length ebs
    /\ existsb constructsCorrelation (calls run) = false
    /\ existsb isCustomizeCall (calls run) = false.
Proof.
  intros kind name config customize selectFunc ebs compiled queryWithColumn
         run.
  assert (Hrun : run
            = (map (fun _ => As (Spec.aggregationFor kind
                                   (selectFunc queryWithColumn)) name) ebs,
               flat_map (fun _ => [CallSelectFunc queryWithColumn;
                                   Spec.aggregationCallFor kind;
                                   CallAs name]) ebs)).
  { unfold run. apply invokeAll_run. intros eb. apply invocation_of_kind. }
  rewrite Hrun. unfold value, calls. simpl fst. simpl snd.
  repeat split.
  - now rewrite flat_map_const_length.
  - apply flat_map_const_existsb. destruct kind; reflexivity.
  - apply flat_map_const_existsb. destruct kind; reflexivity.
Qed.

(** X2. The function a resolver returns can be applied to any number of
    expressions.  Whatever their number, the customize function has run
    once, when the resolver was called, on [SELECT FROM target]; every
    result is that one customized query with its own filter; and each
    application costs one [where] call for the simple resolver and two for
    the through resolver. *)
Theorem customize_once_for_many_correlations :
  forall (config : RelationConfig) (tconfig : ThroughRelationConfig)
         (customize : option CustomizeQueryFunction)
         (exprs : list Expression),
    let base := fun cfg : RelationConfig =>
      orIdentity customize (SelectFrom (target cfg)) in
    let simple :=
      query <- relationQueryFactory config customize ;;
      correlateAll query exprs in
    let viaJunction :=
      query <- throughRelationQueryFactory tconfig customize ;;
      correlateAll query exprs in
    value simple
    = map (fun e => Where (base config) (reference config) OpEq (ValueExpr e))
          exprs
    /\ filter isCustomizeCall (calls simple)
       = [CallCustomizeQuery (SelectFrom (target config))]
    /\ length (calls simple) = 3 + length exprs
    /\ value viaJunction
       = map (fun e =>
                Where (base tconfig) (reference tconfig) OpIn
                  (SubQuery
                     (Where (Select (SelectFrom (through tconfig))
                                    (Column (throughReference tconfig)))
                            (throughColumn tconfig) OpEq (ValueExpr e))))
             exprs
    /\ filter isCustomizeCall (calls viaJunction)
       = [CallCustomizeQuery (SelectFrom (target tconfig))]
    /\ length (calls viaJunction) = 6 + 2 * length exprs.
Proof.
  intros config tconfig customize exprs base simple viaJunction.
  pose proof (correlateAll_run
                (value (relationQueryFactory config customize))
                (fun e => Where (base config) (reference config) OpEq
                                (ValueExpr e))
                [CallWhere (reference config) OpEq]
                (fun e => eq_refl) exprs) as Hs.
  pose proof (correlateAll_run
                (value (throughRelationQueryFactory tconfig customize))
                (fun e =>
                   Where (base tconfig) (reference tconfig) OpIn
                     (SubQuery
                        (Where (Select (SelectFrom (through tconfig))
                                       (Column (throughReference tconfig)))
                               (throughColumn tconfig) OpEq (ValueExpr e))))
                [CallWhere (reference tconfig) OpIn;
                 CallWhere (throughColumn tconfig) OpEq]
                (fun e => eq_refl) exprs) as Ht.
  assert (Hsimple :
            simple
            = (map (fun e => Where (base config) (reference config) OpEq
                                   (ValueExpr e)) exprs,
               calls (relationQueryFactory config customize)
               ++ flat_map (fun _ => [CallWhere (reference config) OpEq])
                           exprs)).
  { unfold simple.
    rewrite (bind_run (relationQueryFactory config customize)), Hs.
    reflexivity. }
  assert (Hvia :
            viaJunction
            = (map (fun e =>
                      Where (base tconfig) (reference tconfig) OpIn
                        (SubQuery
                           (Where (Select (SelectFrom (through tconfig))
                                          (Column (throughReference tconfig)))
                                  (throughColumn tconfig) OpEq
                                  (ValueExpr e)))) exprs,
               calls (throughRelationQueryFactory tconfig customize)
               ++ flat_map (fun _ => [CallWhere (reference tconfig) OpIn;
                                      CallWhere (throughColumn tconfig) OpEq])
                           exprs)).
  { unfold viaJunction.
    rewrite (bind_run (throughRelationQueryFactory tconfig customize)), Ht.
    reflexivity. }
  rewrite Hsimple, Hvia. unfold value, calls. simpl fst. simpl snd.
  repeat split.
  - simpl. rewrite flat_map_const_filter; reflexivity.
  - simpl. rewrite flat_map_const_length. simpl. lia.
  - simpl. rewrite flat_map_const_filter; reflexivity.
  - simpl. rewrite flat_map_const_length. simpl. lia.
Qed.

(** ** What a relation relates *)

Lemma existsb_pointwise {A : Type} (f g : A -> bool) (l : list A) :
  (forall x, f x = g x) -> existsb f l = existsb g l.
Proof.
  intros Hfg. induction l as [| x l IH]; simpl.
  - reflexivity.
  - now rewrite Hfg, IH.
Qed.

Lemma resolve_own (t col ref : string) (r : Row) (scope : Scope) :
  splitReference ref = Some (t, col) ->
  resolve ref ((t, r) :: scope) = cell col r.
Proof.
  intros Hsplit. unfold resolve. rewrite Hsplit. simpl.
  now rewrite String.eqb_refl.
Qed.

Lemma resolve_outer (t col ref : string) (parent : Row) (scope : Scope) :
  splitReference ref = Some (t, col) ->
  assoc t scope = Some parent ->
  resolve ref scope = cell col parent.
Proof.
  intros Hsplit Hparent. unfold resolve. now rewrite Hsplit, Hparent.
Qed.

Lemma sqlEq_null_r (a : Json) : sqlEq a JNull = false.
Proof. destruct a; reflexivity. Qed.

Lemma matchingRows_plain (db : Database) (scope : Scope)
  (config : RelationConfig) :
  matchingRows db scope config None
  = map (fun r => (r, []))
        (filter (fun r => correlates config (target config) scope (r, []))
                (rowsOf db (target config))).
Proof.
  unfold matchingRows. simpl. apply filter_of_map.
Qed.

Lemma matchingRowsThrough_plain (db : Database) (scope : Scope)
  (config : ThroughRelationConfig) :
  matchingRowsThrough db scope config None
  = map (fun r => (r, []))
        (filter (fun r =>
                   correlatesThrough db config (target config) scope (r, []))
                (rowsOf db (target config))).
Proof.
  unfold matchingRowsThrough. simpl. apply filter_of_map.
Qed.

Lemma shapeOf_plain (db : Database) (table : string) (scope : Scope)
  (sels : list Selection) (r : Row) :
  shapeOf db table scope sels (r, [])
  = flat_map (evalSelection db ((table, r) :: scope)) sels.
Proof. reflexivity. Qed.

Lemma matchingRows_by_key (db : Database) (scope : Scope)
  (config : RelationConfig) (rc pt pc : string) (parent : Row) :
  splitReference (reference config) = Some (target config, rc) ->
  splitReference (column config) = Some (pt, pc) ->
  pt <> target config ->
  assoc pt scope = Some parent ->
  matchingRows db scope config None
  = map (fun r => (r, []))
        (filter (fun r => sqlEq (cell rc r) (cell pc parent))
                (rowsOf db (target config))).
Proof.
  intros Href Hcol Hneq Hparent.
  rewrite matchingRows_plain. f_equal. apply filter_ext. intros r.
  unfold correlates. simpl.
  rewrite (resolve_own _ _ _ _ _ Href).
  rewrite (resolve_enclosing _ _ _ _ _ _ Hcol Hneq).
  now rewrite (resolve_outer _ _ _ _ _ Hcol Hparent).
Qed.





(** X6. When the [column] cell of the enclosing row is NULL, nothing is
    related to it: the filter the code builds is an equality, and a null is
    equal to nothing.  [hasMany] produces the empty array, [hasOne] and
    [hasOneNotNull] produce [null]. *)
Theorem null_key_relates_nothing :
  forall (db : Database) (scope : Scope) (name : string)
         (config : RelationConfig) (rc pt pc : string) (parent : Row)
         (sels : list Selection) (eb : ExpressionBuilder),
    splitReference (reference config) = Some (target config, rc) ->
    splitReference (column config) = Some (pt, pc) ->
    pt <> target config ->
    assoc pt scope = Some parent ->
    cell pc parent = JNull ->
    produced db scope (value (hasMany name config None) (selecting sels)) eb
    = JArr []
    /\ produced db scope (value (hasOne name config None) (selecting sels)) eb
       = JNull
    /\ produced db scope
                (value (hasOneNotNull name config None) (selecting sels)) eb
       = JNull.
Proof.
  intros db scope name config rc pt pc parent sels eb Href Hcol Hneq Hparent
         Hnull.
  assert (Hrows : matchingRows db scope config None = []).
  { rewrite (matchingRows_by_key db scope config rc pt pc parent
                                 Href Hcol Hneq Hparent), Hnull.
    induction (rowsOf db (target config)) as [| r rows IH]; simpl.
    - reflexivity.
    - now rewrite sqlEq_null_r. }
  split; [| split].
  - now rewrite produced_hasMany, Hrows.
  - now rewrite produced_hasOne, Hrows.
  - change (hasOneNotNull name config None) with (hasOne name config None).
    now rewrite produced_hasOne, Hrows.
Qed.

Lemma null_key_relates_nothing_witness :
  produced Scenario.db [("posts", Variants.orphan)]
    (value (hasOne "author" Variants.authorConfig None)
           (selecting [Column "name"]))
    Scenario.postsContext
  = JNull.
Proof.
  destruct (null_key_relates_nothing
              Scenario.db [("posts", Variants.orphan)] "author"
              Variants.authorConfig "id" "posts" "user_id" Variants.orphan
              [Column "name"] Scenario.postsContext) as [_ [H _]].
  - reflexivity.
  - reflexivity.
  - discriminate.
  - reflexivity.
  - reflexivity.
  - exact H.
Defined.

(** X4. For a relation through a junction table, with [reference] a column of
    the target, [throughColumn] and [throughReference] columns of the
    junction and [column] a column of the enclosing table: [hasManyThrough]
    produces the selected shapes of exactly the target rows for which some
    junction row has its [throughColumn] cell equal to the [column] cell of
    the enclosing row and its [throughReference] cell equal to the row's
    [reference] cell; each such row once, in table order. *)
Theorem through_relation_by_key :
  forall (db : Database) (scope : Scope) (name : string)
         (config : ThroughRelationConfig) (rc tc trc pt pc : string)
         (parent : Row) (sels : list Selection) (eb : ExpressionBuilder),
    splitReference (reference config) = Some (target config, rc) ->
    splitReference (throughColumn config) = Some (through config, tc) ->
    splitReference (throughReference config) = Some (through config, trc) ->
    splitReference (column config) = Some (pt, pc) ->
    pt <> target config ->
    pt <> through config ->
    assoc pt scope = Some parent ->
    let linked := fun r j =>
      sqlEq (cell tc j) (cell pc parent) && sqlEq (cell rc r) (cell trc j) in
    let related :=
      filter (fun r => existsb (linked r) (rowsOf db (through config)))
             (rowsOf db (target config)) in
    produced db scope
             (value (hasManyThrough name config None) (selecting sels)) eb
    = JArr (map (fun r =>
                   JObj (flat_map
                           (evalSelection db ((target config, r) :: scope))
                           sels))
                related).
Proof.
  intros db scope name config rc tc trc pt pc parent sels eb
         Href Htc Htrc Hcol Hneq Hneq' Hparent linked related.
  rewrite produced_hasManyThrough, matchingRowsThrough_plain, map_map.
  f_equal.
  assert (Hfilter :
            filter (fun r =>
                      correlatesThrough db config (target config) scope
                                        (r, []))
                   (rowsOf db (target config))
            = related).
  { apply filter_ext. intros r.
    unfold correlatesThrough, junctionValues. simpl.
    rewrite existsb_map_filter. apply existsb_pointwise. intros j.
    unfold linked.
    rewrite (resolve_own _ _ _ _ _ Htc), (resolve_own _ _ _ _ _ Htrc).
    rewrite (resolve_own _ _ _ _ _ Href).
    rewrite (resolve_enclosing _ _ _ _ _ _ Hcol Hneq').
    rewrite (resolve_enclosing _ _ _ _ _ _ Hcol Hneq).
    now rewrite (resolve_outer _ _ _ _ _ Hcol Hparent). }
  now rewrite Hfilter.
Qed.

Lemma through_relation_by_key_witness :
  produced Scenario.db [("posts", Scenario.post 100 2 "America first")]
    (value (hasManyThrough "tags" Scenario.tagsConfig None)
           (selecting [Column "name"]))
    Scenario.postsContext
  = JArr [JObj [("name", JStr "TypeScript")];
          JObj [("name", JStr "JavaScript")]].
Proof.
  rewrite (through_relation_by_key
             Scenario.db [("posts", Scenario.post 100 2 "America first")]
             "tags" Scenario.tagsConfig "id" "post_id" "tag_id" "posts" "id"
             (Scenario.post 100 2 "America first")
             [Column "name"] Scenario.postsContext).
  - reflexivity.
  - reflexivity.
  - reflexivity.
  - reflexivity.
  - reflexivity.
  - discriminate.
  - discriminate.
  - reflexivity.
Defined.

(** ** What a relation reads *)

Lemma columns_without_database (db db' : Database) (scope : Scope)
  (cols : list string) :
  flat_map (evalSelection db scope) (map Column cols)
  = flat_map (evalSelection db' scope) (map Column cols).
Proof.
  induction cols as [| c cols IH]; simpl.
  - reflexivity.
  - now rewrite IH.
Qed.

Lemma shapeOf_columns (db db' : Database) (table : string) (scope : Scope)
  (cols : list string) (p : Row * Row) :
  shapeOf db table scope (map Column cols) p
  = shapeOf db' table scope (map Column cols) p.
Proof.
  unfold shapeOf. f_equal. apply columns_without_database.
Qed.

(** X7. A simple relation with no customize function and a selector of named
    columns reads the target table only: two databases with the same rows
    in that table give the same value, whatever their other tables hold. *)
Theorem simple_relation_reads_target_only :
  forall (db db' : Database) (scope : Scope) (name : string)
         (config : RelationConfig) (cols : list string)
         (eb : ExpressionBuilder),
    rowsOf db (target config) = rowsOf db' (target config) ->
    let selectFunc := selecting (map Column cols) in
    produced db scope (value (hasOne name config None) selectFunc) eb
    = produced db' scope (value (hasOne name config None) selectFunc) eb
    /\ produced db scope (value (hasOneNotNull name config None) selectFunc) eb
       = produced db' scope (value (hasOneNotNull name config None) selectFunc)
                  eb
    /\ produced db scope (value (hasMany name config None) selectFunc) eb
       = produced db' scope (value (hasMany name config None) selectFunc) eb.
Proof.
  intros db db' scope name config cols eb Hrows selectFunc.
  assert (Hmatch : matchingRows db scope config None
                   = matchingRows db' scope config None)
    by now rewrite !matchingRows_plain, Hrows.
  assert (Hone : produced db scope (value (hasOne name config None) selectFunc)
                          eb
                 = produced db' scope
                            (value (hasOne name config None) selectFunc) eb).
  { unfold selectFunc. rewrite !produced_hasOne, Hmatch.
    destruct (matchingRows db' scope config None) as [| p rest].
    - reflexivity.
    - now rewrite (shapeOf_columns db db'). }
  split; [exact Hone | split; [exact Hone |]].
  unfold selectFunc. rewrite !produced_hasMany, Hmatch. f_equal.
  apply map_ext. intros p. now rewrite (shapeOf_columns db db').
Qed.

Lemma simple_relation_reads_target_only_witness :
  produced Scenario.db [("users", Scenario.bob)]
    (value (hasMany "posts" Scenario.postsConfig None)
           (selecting (map Column ["id"; "title"])))
    Scenario.usersContext
  = produced [("posts", rowsOf Scenario.db "posts")]
      [("users", Scenario.bob)]
      (value (hasMany "posts" Scenario.postsConfig None)
             (selecting (map Column ["id"; "title"])))
      Scenario.usersContext.
Proof.
  apply (simple_relation_reads_target_only
           Scenario.db [("posts", rowsOf Scenario.db "posts")]
           [("users", Scenario.bob)] "posts" Scenario.postsConfig
           ["id"; "title"] Scenario.usersContext).
  reflexivity.
Defined.

(** X8. A through relation with no customize function and a selector of named
    columns reads the target table and the junction table only, and of the
    junction table only which rows it contains: repeating or reordering
    junction rows never repeats or reorders the related rows. *)
Theorem through_relation_reads_junction_as_set :
  forall (db db' : Database) (scope : Scope) (name : string)
         (config : ThroughRelationConfig) (cols : list string)
         (eb : ExpressionBuilder),
    rowsOf db (target config) = rowsOf db' (target config) ->
    (forall j, In j (rowsOf db (through config))
               <-> In j (rowsOf db' (through config))) ->
    let selectFunc := selecting (map Column cols) in
    produced db scope (value (hasManyThrough name config None) selectFunc) eb
    = produced db' scope (value (hasManyThrough name config None) selectFunc)
               eb.
Proof.
  intros db db' scope name config cols eb Hrows Hjunction selectFunc.
  unfold selectFunc.
  rewrite !produced_hasManyThrough, !matchingRowsThrough_plain, Hrows.
  f_equal. rewrite !map_map.
  assert (Hfilter :
            filter (fun r =>
                      correlatesThrough db config (target config) scope
                                        (r, []))
                   (rowsOf db' (target config))
            = filter (fun r =>
                        correlatesThrough db' config (target config) scope
                                          (r, []))
                     (rowsOf db' (target config))).
  { apply filter_ext. intros r.
    unfold correlatesThrough, junctionValues. simpl.
    rewrite !existsb_map_filter. now apply existsb_same_elements. }
  rewrite Hfilter. apply map_ext. intros r.
  now rewrite (shapeOf_columns db db').
Qed.

Lemma through_relation_reads_junction_as_set_witness :
  produced Scenario.db [("posts", Scenario.post 100 2 "America first")]
    (value (hasManyThrough "tags" Scenario.tagsConfig None)
           (selecting (map Column ["name"])))
    Scenario.postsContext
  = produced Variants.repeated
      [("posts", Scenario.post 100 2 "America first")]
      (value (hasManyThrough "tags" Scenario.tagsConfig None)
             (selecting (map Column ["name"])))
      Scenario.postsContext.
Proof.
  apply (through_relation_reads_junction_as_set
           Scenario.db Variants.repeated
           [("posts", Scenario.post 100 2 "America first")] "tags"
           Scenario.tagsConfig ["name"] Scenario.postsContext).
  - reflexivity.
  - intros j. simpl. tauto.
Defined.

(** ** How customization, nesting and the parent query compose *)


(** X10. A compiled relation placed in the column selector of a [hasMany]
    relation is evaluated once for each related row, with that row as its
    enclosing row, and its value is attached to the row's shape under the
    inner relation's own name. *)
Theorem nested_relation_value :
  forall (db : Database) (scope : Scope) (name : string)
         (config : RelationConfig)
         (customize : option CustomizeQueryFunction)
         (sels : list Selection)
         (kind' : RelationKind) (name' : string)
         (config' : ThroughRelationConfig)
         (customize' : option CustomizeQueryFunction)
         (selectFunc' : SelectFunction) (eb eb' : ExpressionBuilder),
    let inner := value (relationOfKind kind' name' config' customize')
                       selectFunc' in
    let table :=
      tableOf (orIdentity customize (SelectFrom (target config))) in
    produced db scope
             (value (hasMany name config customize)
                    (selecting (sels ++ [Aliased (value (inner eb'))]))) eb
    = JArr (map (fun p =>
                   JObj (shapeOf db table scope sels p
                         ++ [(name',
                              produced db ((table, fst p) :: scope) inner
                                       eb')]))
                (matchingRows db scope config customize)).
Proof.
  intros db scope name config customize sels kind' name' config' customize'
         selectFunc' eb eb' inner table.
  rewrite produced_hasMany. f_equal. apply map_ext. intros p. f_equal.
  unfold shapeOf. rewrite flat_map_app, app_assoc. f_equal.
  unfold produced, inner. rewrite invocation_of_kind. reflexivity.
Qed.

Lemma invokeEach_value (rels : list AliasedExpressionFactory)
  (eb : ExpressionBuilder) :
  value (invokeEach rels eb) = map (fun rel => value (rel eb)) rels.
Proof.
  induction rels as [| rel rest IH]; simpl.
  - reflexivity.
  - rewrite !value_bind. simpl. now rewrite IH.
Qed.

Lemma flat_map_columns (db : Database) (scope : Scope) (cols : list string) :
  flat_map (evalSelection db scope) (map Column cols)
  = map (fun c => (columnName c, resolve c scope)) cols.
Proof.
  induction cols as [| c cols IH]; simpl.
  - reflexivity.
  - now rewrite IH.
Qed.

Lemma flat_map_aliased (db : Database) (scope : Scope)
  (es : list AliasedExpression) :
  flat_map (evalSelection db scope) (map Aliased es)
  = map (evalAliased db scope) es.
Proof.
  induction es as [| e es IH]; simpl.
  - reflexivity.
  - now rewrite IH.
Qed.

Lemma execute_selectWithRelations (db : Database) (table : string)
  (cols : list string) (rels : list AliasedExpressionFactory) :
  execute db (value (selectWithRelations table cols rels))
  = map (fun r =>
           map (fun c => (columnName c, resolve c [(table, r)])) cols
           ++ map (fun rel =>
                     evalAliased db [(table, r)]
                                 (value (rel (ExprBuilder [table])))) rels)
        (rowsOf db table).
Proof.
  unfold execute, selectWithRelations.
  rewrite value_bind, invokeEach_value. simpl value.
  rewrite evalQuery_selecting. simpl evalQuery. rewrite !map_map.
  apply map_ext. intros r. simpl. unfold shapeOf. simpl.
  rewrite flat_map_app, flat_map_columns. f_equal.
  rewrite <- (map_map (fun rel : AliasedExpressionFactory =>
                         value (rel (ExprBuilder [table]))) Aliased).
  now rewrite flat_map_aliased, map_map.
Qed.

Lemma declareEach_value (ds : list Declaration) :
  value (declareEach relationFunctions ds)
  = map (fun d =>
           (declName d,
            value (relationOfKind (declKind d) (declName d) (declConfig d)
                                  (declCustomize d)) (declSelect d))) ds.
Proof.
  induction ds as [| d rest IH]; simpl.
  - reflexivity.
  - rewrite !value_bind. simpl. rewrite IH.
    destruct (declKind d); reflexivity.
Qed.

(** X11. End to end, as in the tests: relations declared through
    [createRelationsBuilder()(table', ...)] and listed in the [select] of a
    query over [table].  The query yields exactly one row for each row of
    [table], in table order, however many rows each relation relates: the
    named columns of the row, then the value of each relation for that row,
    under the relation's declared name.  The table name given at
    declaration plays no part. *)
Theorem declared_relations_in_parent_query :
  forall (db : Database) (table table' : string) (cols : list string)
         (ds : list Declaration),
    let declared :=
      value (createRelationsBuilder tt table'
               (fun rf => declareEach rf ds)) in
    let result :=
      execute db (value (selectWithRelations table cols (map snd declared)))
    in
    result
    = map (fun r =>
             map (fun c => (columnName c, resolve c [(table, r)])) cols
             ++ map (fun d =>
                       (declName d,
                        produced db [(table, r)]
                          (value (relationOfKind (declKind d) (declName d)
                                    (declConfig d) (declCustomize d))
                                 (declSelect d))
                          (ExprBuilder [table]))) ds)
          (rowsOf db table)
    /\ length result = length (rowsOf db table).
Proof.
  intros db table table' cols ds declared result.
  assert (Hresult :
            result
            = map (fun r =>
                     map (fun c => (columnName c, resolve c [(table, r)])) cols
                     ++ map (fun d =>
                               (declName d,
                                produced db [(table, r)]
                                  (value (relationOfKind (declKind d)
                                            (declName d) (declConfig d)
                                            (declCustomize d))
                                         (declSelect d))
                                  (ExprBuilder [table]))) ds)
                  (rowsOf db table)).
  { unfold result, declared, createRelationsBuilder.
    rewrite execute_selectWithRelations, declareEach_value, map_map.
    apply map_ext. intros r. f_equal. rewrite map_map.
    apply map_ext. intros d. simpl snd.
    unfold produced. rewrite invocation_of_kind. reflexivity. }
  split.
  - exact Hresult.
  - now rewrite Hresult, length_map.
Qed.

(** The test "should handle multiple relations on same query", for Bob. *)
Example multiple_relations :
  let declared :=
    value (createRelationsBuilder tt "users"
             (fun rf =>
                declareEach rf
                  [ {| declKind := HasOne; declName := "profile";
                       declConfig :=
                         {| relationConfig := Scenario.profileConfig;
                            through := ""; throughColumn := "";
                            throughReference := "" |};
                       declCustomize := None;
                       declSelect := selecting [Column "bio"] |};
                    {| declKind := HasMany; declName := "posts";
                       declConfig :=
                         {| relationConfig := Scenario.postsConfig;
                            through := ""; throughColumn := "";
                            throughReference := "" |};
                       declCustomize :=
                         Some (addFilter "title" OpNe (JStr "Europe"));
                       declSelect := selecting [Column "title"] |} ])) in
  execute [("users", [Scenario.bob]);
           ("profiles", rowsOf Scenario.db "profiles");
           ("posts", rowsOf Scenario.db "posts")]
    (value (selectWithRelations "users" ["name"] (map snd declared)))
  = [[("name", JStr "Bob");
      ("profile", JObj [("bio", JStr "Bob's bio")]);
      ("posts", JArr [JObj [("title", JStr "America first")];
                      JObj [("title", JStr "American pie")]])]].
Proof. reflexivity. Qed.

(** * Values by key, and the store *)

(** ** Projections *)

Lemma evalQuery_projectStep (db : Database) (scope : Scope)
  (qb : SelectQueryBuilder) (step : Projection) :
  evalQuery db scope (projectStep qb step)
  = map (fun p : Row * Row =>
           (fst p, snd p ++ evalProjection db (tableOf qb) scope (fst p) step))
        (evalQuery db scope qb).
Proof. destruct step; reflexivity. Qed.

Lemma tableOf_projectStep (qb : SelectQueryBuilder) (step : Projection) :
  tableOf (projectStep qb step) = tableOf qb.
Proof. destruct step; reflexivity. Qed.

(** A projection keeps the rows of the query and their order, and turns
    each into its selected shape. *)
Lemma evalQuery_project (db : Database) (scope : Scope)
  (steps : list Projection) :
  forall qb,
    evalQuery db scope (project steps qb)
    = map (fun p => (fst p, shapeOfSteps db (tableOf qb) scope steps p))
          (evalQuery db scope qb).
Proof.
  unfold project.
  induction steps as [| step steps IH]; intros qb; simpl fold_left.
  - rewrite <- (map_id (evalQuery db scope qb)) at 1.
    apply map_ext. intros [r out]. unfold shapeOfSteps. simpl.
    now rewrite app_nil_r.
  - rewrite IH, tableOf_projectStep, evalQuery_projectStep, map_map.
    apply map_ext. intros [r out]. unfold shapeOfSteps. simpl.
    now rewrite <- app_assoc.
Qed.


Lemma projected_array (db : Database) (scope : Scope) (name : string)
  (qb : SelectQueryBuilder) (steps : list Projection) :
  snd (evalAliased db scope (As (JsonArrayFrom (project steps qb)) name))
  = JArr (map (fun p => JObj (shapeOfSteps db (tableOf qb) scope steps p))
              (evalQuery db scope qb)).
Proof.
  simpl. rewrite evalQuery_project, map_map. reflexivity.
Qed.



Lemma projected_hasManyThrough (db : Database) (scope : Scope)
  (name : string) (config : ThroughRelationConfig)
  (customize : option CustomizeQueryFunction)
  (steps : list Projection) (eb : ExpressionBuilder) :
  produced db scope
           (value (hasManyThrough name config customize) (project steps)) eb
  = JArr (map (fun p =>
                 JObj (shapeOfSteps db
                         (tableOf (orIdentity customize
                                     (SelectFrom (target config))))
                         scope steps p))
              (matchingRowsThrough db scope config customize)).
Proof.
  unfold produced.
  change (value (value (hasManyThrough name config customize)
                       (project steps) eb))
    with (As (JsonArrayFrom
                (project steps
                   (value (value (throughRelationQueryFactory config customize)
                                 (SqlRef (column config)))))) name).
  rewrite projected_array, evalQuery_through. reflexivity.
Qed.

(** ** The filter the code builds, and the related rows *)






(** ** Produced values *)




(** ** An empty junction table *)

Lemma filter_none {A : Type} (f : A -> bool) (l : list A) :
  (forall x, f x = false) -> filter f l = [].
Proof.
  intros Hf. induction l as [| x l IH]; simpl.
  - reflexivity.
  - now rewrite Hf.
Qed.

(** X12. When the junction table has no rows, a through relation relates
    nothing: [hasManyThrough] produces the empty array, whatever the
    customize function is, for every column selector that is a
    projection. *)
Theorem empty_junction_relates_nothing :
  forall (db : Database) (scope : Scope) (name : string)
         (config : ThroughRelationConfig)
         (customize : option CustomizeQueryFunction)
         (steps : list Projection) (eb : ExpressionBuilder),
    rowsOf db (through config) = [] ->
    produced db scope
             (value (hasManyThrough name config customize) (project steps))
             eb
    = JArr [].
Proof.
  intros db scope name config customize steps eb Hempty.
  rewrite projected_hasManyThrough.
  unfold matchingRowsThrough. rewrite filter_none.
  - reflexivity.
  - intros p. unfold correlatesThrough, junctionValues.
    now rewrite Hempty.
Qed.

Lemma empty_junction_relates_nothing_witness :
  produced [("tags", rowsOf Scenario.db "tags"); ("post_tags", [])]
    [("posts", Scenario.post 100 2 "America first")]
    (value (hasManyThrough "tags" Scenario.tagsConfig None)
           (project [PickAll]))
    Scenario.postsContext
  = JArr [].
Proof.
  apply (empty_junction_relates_nothing
           [("tags", rowsOf Scenario.db "tags"); ("post_tags", [])]).
  reflexivity.
Defined.

(** ** The store *)





(** A column selector that is not pure shows in this embedding: invoked
    twice with the same context, the compiled relation returns two
    different expressions and changes the store. *)
Example impure_selector_is_seen :
  let queryWithColumn :=
    value (value (throughRelationQueryFactory Scenario.tagsConfig None)
                 (SqlRef "posts.id")) in
  Stateful.declareAndInvoke nat HasManyThrough "tags" Scenario.tagsConfig
    None Stateful.countingSelector
    [Scenario.postsContext; Scenario.postsContext] 0
  = ([As (JsonArrayFrom (Select queryWithColumn (Column "first"))) "tags";
      As (JsonArrayFrom (Select queryWithColumn (Column "later"))) "tags"],
     2).
Proof. reflexivity. Qed.
